(** * The comparison runner of apikey-client.py

    A shallow embedding of [MCPClientDemo.run]: the conversion of the tool
    descriptors into function-call schema entries, the two calls of the
    completion endpoint, the optional tool call in between, and the
    dictionary that [run] returns.

    The tool channel (the [mcp] package) and the completion endpoint (the
    [openai] package) are outside the program.  They are collaborators: a
    [World] answers each request, and every request together with its
    outcome is recorded in a trace, so that statements on the order of the
    calls and on calls that never happen can be made. *)

From stdpp Require Import gmap strings list fin_maps.

Set Warnings "-register-all".
Open Scope string_scope.
Open Scope list_scope.

(** ** Python values *)

(** The dynamically typed values the program handles: what [json.loads]
    returns, the schemas of the tools, the keyword dictionaries and the
    dictionaries [run] builds.  A dictionary with string keys is a finite
    map. *)
Inductive value : Type :=
| VNone
| VBool (b : bool)
| VInt (n : Z)
| VStr (s : string)
| VList (l : list value)
| VDict (d : gmap string value).

(** Truth value of a Python object, as [or] and [if] test it. *)
Definition truthy (v : value) : bool :=
  match v with
  | VNone => false
  | VBool b => b
  | VInt n => negb (Z.eqb n 0)
  | VStr s => negb (String.eqb s "")
  | VList l => match l with [] => false | _ :: _ => true end
  | VDict d => negb (bool_decide (d = ∅))
  end.

(** [x or y] *)
Definition py_or (x y : value) : value := if truthy x then x else y.

(** [d.update(e)]: the keys of [e] are set in [d]. *)
Definition update (d e : gmap string value) : gmap string value := e ∪ d.

(** ** Tool descriptors and function-call schema entries *)

(** [mcp.types.Tool], the fields the program reads. *)
Record Tool : Type := mkTool {
  name : string;
  description : value;
  inputSchema : value
}.

(** The literal after [tool.inputSchema or] (lines 45 to 51). *)
Definition default_parameters : value :=
  VDict {[
    "type" := VStr "object";
    "properties" := VDict {[
      "city_name" := VDict {[ "type" := VStr "string";
                              "description" := VStr "城市名称" ]} ]};
    "required" := VList [VStr "city_name"]
  ]}.

(** The dictionary appended to [functions] for one tool (lines 41 to 52). *)
Definition function_entry (tool : Tool) : gmap string value :=
  {[
    "name" := VStr (name tool);
    "description" := py_or (description tool) (VStr "");
    "parameters" := py_or (inputSchema tool) default_parameters
  ]}.

(** The loop of lines 39 to 52: [functions] starts empty and one entry is
    appended per tool, in order. *)
Fixpoint functions_loop (functions : list value) (tools : list Tool) : list value :=
  match tools with
  | [] => functions
  | tool :: rest => functions_loop (functions ++ [VDict (function_entry tool)]) rest
  end.

Definition functions_of (tools : list Tool) : list value := functions_loop [] tools.

(** ** The completion endpoint *)

(** [message.function_call]: a name and the arguments as a JSON text. *)
Record FunctionCall : Type := mkFunctionCall {
  fc_name : string;
  fc_arguments : string
}.

(** [choices[i].message]: [content] is a string or [None], [function_call]
    is an object or [None]. *)
Record Message : Type := mkMessage {
  content : value;
  function_call : option FunctionCall
}.

Record Response : Type := mkResponse {
  choices : list Message
}.

(** The keyword arguments of [chat.completions.create].  A keyword that is
    not passed is [None]. *)
Record Request : Type := mkRequest {
  model : string;
  messages : list value;
  functions : option (list value);
  function_call_mode : option string
}.

(** ** Exceptions, outcomes and the trace *)

Inductive exn : Type :=
| JSONDecodeError (doc : string)     (* json.loads on a text that is not JSON *)
| IndexError                         (* choices[0] of an empty list *)
| ConnectionError (msg : string)     (* the child process or the handshake *)
| ToolInvocationError (msg : string) (* call_tool *)
| EndpointError (msg : string).      (* the completion service *)

Inductive result (A : Type) : Type :=
| Ok (a : A)
| Raise (e : exn).
Arguments Ok {A} a.
Arguments Raise {A} e.

(** What the program asks of the outside, with the answer it got. *)
Inductive event : Type :=
| EvStdioEnter (command : string) (args : list string) (r : result unit)
| EvSessionEnter (r : result unit)
| EvInitialize (r : result unit)
| EvListTools (r : result (list Tool))
| EvCreate (req : Request) (r : result Response)
| EvCallTool (tool_name : string) (arguments : value) (r : result value)
| EvSessionExit
| EvStdioExit.

Definition trace : Type := list event.

(** The collaborators.  Each answer may depend on everything that happened
    before; [json_loads] is a function of its text alone. *)
Record World : Type := mkWorld {
  stdio_client : trace -> string -> list string -> result unit;
  client_session : trace -> result unit;
  initialize : trace -> result unit;
  list_tools : trace -> result (list Tool);
  create : trace -> Request -> result Response;
  call_tool : trace -> string -> value -> result value;
  json_loads : string -> option value
}.

(** ** Computations: a trace is threaded, an exception ends the rest *)

Definition M (A : Type) : Type := trace -> trace * result A.

Definition ret {A} (a : A) : M A := fun tr => (tr, Ok a).

Definition raise {A} (e : exn) : M A := fun tr => (tr, Raise e).

Definition bind {A B} (m : M A) (k : A -> M B) : M B :=
  fun tr =>
    match m tr with
    | (tr', Ok a) => k a tr'
    | (tr', Raise e) => (tr', Raise e)
    end.

Notation "x <- m ;; k" := (bind m (fun x => k))
  (at level 100, m at next level, right associativity).
Notation "m ;;; k" := (bind m (fun _ => k))
  (at level 100, right associativity).

(** One request: the world answers from the trace so far, the request and
    the answer are appended, and the answer is the outcome. *)
Definition ask {A} (answer : trace -> result A) (ev : result A -> event) : M A :=
  fun tr => let r := answer tr in (tr ++ [ev r], r).

(** An action that cannot fail, such as leaving a context manager. *)
Definition emit (ev : event) : M unit := fun tr => (tr ++ [ev], Ok tt).

(** [async with enter as x: body]: when [enter] raises the body is not
    run; otherwise the body runs, the manager is left whether the body
    raised or not, and the outcome of the body is the outcome. *)
Definition async_with {A} (enter : M unit) (leave : M unit) (body : M A) : M A :=
  fun tr =>
    match enter tr with
    | (tr1, Raise e) => (tr1, Raise e)
    | (tr1, Ok _) =>
        let (tr2, r) := body tr1 in
        let (tr3, _) := leave tr2 in
        (tr3, r)
    end.

(** ** [MCPClientDemo] *)

Record MCPClientDemo : Type := mkMCPClientDemo {
  server_path : string
}.

Definition the_model : string := "qwen2.5-1.5b-instruct".

Definition user_message (user_query : string) : value :=
  VDict {[ "role" := VStr "user"; "content" := VStr user_query ]}.

(** [choices[0]] *)
Definition first_choice (resp : Response) : M Message :=
  match choices resp with
  | [] => raise IndexError
  | m :: _ => ret m
  end.

(** [json.loads(text)] *)
Definition loads (w : World) (text : string) : M value :=
  match json_loads w text with
  | Some v => ret v
  | None => raise (JSONDecodeError text)
  end.

(** Lines 66 to 70. *)
Definition initial_result_with_tool (message_with_tool : Message) : gmap string value :=
  {[
    "model_reply" := content message_with_tool;
    "tool_called" := VNone;
    "tool_result" := VNone
  ]}.

(** The argument of [result_with_tool.update] (lines 79 to 83). *)
Definition tool_fields (tool_name : string) (arguments tool_result : value)
  : gmap string value :=
  {[
    "tool_called" := VStr tool_name;
    "tool_arguments" := arguments;
    "tool_result" := tool_result
  ]}.

(** Lines 95 to 97. *)
Definition result_no_tool_of (message_no_tool : Message) : gmap string value :=
  {[ "model_reply" := content message_no_tool ]}.

(** The dictionary returned (lines 100 to 104). *)
Definition comparison (user_query : string)
    (result_with_tool result_no_tool : gmap string value) : value :=
  VDict {[
    "user_query" := VStr user_query;
    "with_mcp_tool" := VDict result_with_tool;
    "without_tool" := VDict result_no_tool
  ]}.

(** Lines 72 to 83: the branch on [message_with_tool.function_call]. *)
Definition tool_branch (w : World) (message_with_tool : Message)
    (result_with_tool : gmap string value) : M (gmap string value) :=
  match function_call message_with_tool with
  | Some fc =>
      let tool_name := fc_name fc in
      arguments <- loads w (fc_arguments fc) ;;
      tool_result <- ask (fun tr => call_tool w tr tool_name arguments)
                         (EvCallTool tool_name arguments) ;;
      ret (update result_with_tool (tool_fields tool_name arguments tool_result))
  | None => ret result_with_tool
  end.

(** Lines 33 to 104: the body of the two [async with] blocks. *)
Definition session_body (w : World) (user_query : string) : M value :=
  ask (initialize w) EvInitialize ;;;
  tools <- ask (list_tools w) EvListTools ;;
  let functions := functions_of tools in
  let request_with_tool :=
    mkRequest the_model [user_message user_query] (Some functions) (Some "auto") in
  response_with_tool <- ask (fun tr => create w tr request_with_tool)
                            (EvCreate request_with_tool) ;;
  message_with_tool <- first_choice response_with_tool ;;
  let result_with_tool := initial_result_with_tool message_with_tool in
  result_with_tool <- tool_branch w message_with_tool result_with_tool ;;
  let request_no_tool := mkRequest the_model [user_message user_query] None None in
  response_no_tool <- ask (fun tr => create w tr request_no_tool)
                          (EvCreate request_no_tool) ;;
  message_no_tool <- first_choice response_no_tool ;;
  let result_no_tool := result_no_tool_of message_no_tool in
  ret (comparison user_query result_with_tool result_no_tool).

(** [MCPClientDemo.run] as a computation on the trace. *)
Definition run_from (w : World) (self : MCPClientDemo) (user_query : string) : M value :=
  let command := "python" in
  let args := [server_path self] in
  async_with
    (ask (fun tr => stdio_client w tr command args) (EvStdioEnter command args))
    (emit EvStdioExit)
    (async_with
       (ask (client_session w) EvSessionEnter)
       (emit EvSessionExit)
       (session_body w user_query)).

(** A run starts with nothing having happened. *)
Definition run (w : World) (self : MCPClientDemo) (user_query : string)
  : trace * result value :=
  run_from w self user_query [].

(** ** Reading a trace *)

(** The calls of the completion endpoint, in order. *)
Fixpoint completions (tr : trace) : list (Request * result Response) :=
  match tr with
  | [] => []
  | EvCreate req r :: rest => (req, r) :: completions rest
  | _ :: rest => completions rest
  end.

(** The tool invocations, in order. *)
Fixpoint tool_calls (tr : trace) : list (string * value * result value) :=
  match tr with
  | [] => []
  | EvCallTool n a r :: rest => (n, a, r) :: tool_calls rest
  | _ :: rest => tool_calls rest
  end.

(** The message [choices[0].message] of the [i]-th completion call, when
    that call was made, answered, and has a first choice. *)
Definition reply (i : nat) (tr : trace) : option Message :=
  match completions tr !! i with
  | Some (_, Ok resp) => choices resp !! 0%nat
  | _ => None
  end.

(** The exception an event ended with, if it did. *)
Definition failure (ev : event) : option exn :=
  match ev with
  | EvStdioEnter _ _ (Raise e) => Some e
  | EvSessionEnter (Raise e) => Some e
  | EvInitialize (Raise e) => Some e
  | EvListTools (Raise e) => Some e
  | EvCreate _ (Raise e) => Some e
  | EvCallTool _ _ (Raise e) => Some e
  | _ => None
  end.

(** The events that release a context manager; all others are requests to
    the tool channel or to the completion endpoint. *)
Definition is_leave (ev : event) : bool :=
  match ev with
  | EvSessionExit | EvStdioExit => true
  | _ => false
  end.

(** [v[k]] and [v.keys()] for a value that is a dictionary. *)
Definition field (k : string) (v : value) : option value :=
  match v with
  | VDict d => d !! k
  | _ => None
  end.

Definition keys (v : value) : gset string :=
  match v with
  | VDict d => dom d
  | _ => ∅
  end.

(** An object schema whose only property is [key], a string, and which
    requires exactly that property. *)
Definition single_required_string_field (schema : value) (key : string) : Prop :=
  field "type" schema = Some (VStr "object") /\
  field "required" schema = Some (VList [VStr key]) /\
  exists properties spec,
    field "properties" schema = Some (VDict properties) /\
    dom properties = {[ key ]} /\
    properties !! key = Some spec /\
    field "type" spec = Some (VStr "string").

(** A key of a dictionary is absent or bound to [None]. *)
Definition absent_or_none (d : gmap string value) (k : string) : Prop :=
  d !! k = None \/ d !! k = Some VNone.

(** ** The tool provider *)

(** Modelled from the spec: the tool provider program [./stdio_mcp.py] and
    the [call_tool] of the channel are not part of the sources.  Section
    4.1: list tools returns the ordered sequence of tool descriptors; call a
    named tool with an argument mapping returns the tool's result value or
    fails with a ToolInvocationError if the tool name is unknown or the
    arguments are invalid.  A handler answers [None] on invalid arguments. *)
Record Provider : Type := mkProvider {
  registry : list (Tool * (value -> option value))
}.

Definition provider_tools (p : Provider) : list Tool := map fst (registry p).

Definition provider_names (p : Provider) : list string := map name (provider_tools p).

Fixpoint find_handler (reg : list (Tool * (value -> option value))) (n : string)
  : option (value -> option value) :=
  match reg with
  | [] => None
  | (t, h) :: rest => if String.eqb (name t) n then Some h else find_handler rest n
  end.

Definition provider_call_tool (p : Provider) (n : string) (arguments : value)
  : result value :=
  match find_handler (registry p) n with
  | None => Raise (ToolInvocationError n)
  | Some h =>
      match h arguments with
      | Some v => Ok v
      | None => Raise (ToolInvocationError n)
      end
  end.

(** A world whose tool channel reaches the provider [p] without connection
    faults; the completion endpoint and the JSON reader stay arbitrary. *)
Definition provider_world (p : Provider)
    (endpoint : trace -> Request -> result Response)
    (reader : string -> option value) : World :=
  {| stdio_client := fun _ _ _ => Ok tt;
     client_session := fun _ => Ok tt;
     initialize := fun _ => Ok tt;
     list_tools := fun _ => Ok (provider_tools p);
     create := endpoint;
     call_tool := fun _ => provider_call_tool p;
     json_loads := reader |}.

(** ** Sample collaborators *)

Module Sample.

Definition get_weather : Tool :=
  mkTool "get_weather" (VStr "weather of a city")
    (VDict {[ "type" := VStr "object";
              "properties" := VDict {[ "city_name" := VDict {[ "type" := VStr "string" ]} ]} ]}).

Definition weather_handler (arguments : value) : option value :=
  match arguments with
  | VDict d => match d !! "city_name" with
               | Some (VStr _) => Some (VStr "sunny, 28 C")
               | _ => None
               end
  | _ => None
  end.

Definition provider : Provider := mkProvider [(get_weather, weather_handler)].

(** The JSON text of an object with the one key [city_name]. *)
Definition quote : string := String (Ascii.ascii_of_nat 34) EmptyString.

Definition city_json (city : string) : string :=
  "{" +:+ quote +:+ "city_name" +:+ quote +:+ ": " +:+ quote +:+ city +:+ quote +:+ "}".

(** A reader that knows two JSON texts and rejects every other text. *)
Definition reader (text : string) : option value :=
  if String.eqb text "{}" then Some (VDict ∅)
  else if String.eqb text (city_json "Shenzhen")
       then Some (VDict {[ "city_name" := VStr "Shenzhen" ]})
       else None.

(** An endpoint that answers [with_tools] when function schemas are
    offered and [without_tools] when none are. *)
Definition endpoint (with_tools without_tools : result Response)
  : trace -> Request -> result Response :=
  fun _ req =>
    match functions req with
    | Some _ => with_tools
    | None => without_tools
    end.

Definition says (text : string) : Response :=
  mkResponse [mkMessage (VStr text) None].

Definition calls (n arguments : string) : Response :=
  mkResponse [mkMessage VNone (Some (mkFunctionCall n arguments))].

Definition demo : MCPClientDemo := mkMCPClientDemo "./stdio_mcp.py".

(** The query of [main]. *)
Definition query : string := "深圳的天气怎么样".

Definition world (with_tools without_tools : result Response) : World :=
  provider_world provider (endpoint with_tools without_tools) reader.

(** The requests and the events of a run of [demo] against [provider]. *)
Definition request_with_tool : Request :=
  mkRequest the_model [user_message query] (Some (functions_of [get_weather])) (Some "auto").

Definition request_no_tool : Request :=
  mkRequest the_model [user_message query] None None.

Definition opening : list event :=
  [EvStdioEnter "python" ["./stdio_mcp.py"] (Ok tt); EvSessionEnter (Ok tt);
   EvInitialize (Ok tt); EvListTools (Ok [get_weather])].

Definition closing : list event := [EvSessionExit; EvStdioExit].

(** The model answers in words, both times. *)
Definition quiet_world : World := world (Ok (says "I cannot look it up")) (Ok (says "Probably warm")).

Definition quiet_trace : trace :=
  opening ++ [EvCreate request_with_tool (Ok (says "I cannot look it up"))]
          ++ EvCreate request_no_tool (Ok (says "Probably warm")) :: closing.

Definition quiet_result : value :=
  comparison query
    (initial_result_with_tool (mkMessage (VStr "I cannot look it up") None))
    (result_no_tool_of (mkMessage (VStr "Probably warm") None)).

(** The model asks for [get_weather] with arguments that parse. *)
Definition shenzhen : value := VDict {[ "city_name" := VStr "Shenzhen" ]}.

Definition calling_world : World :=
  world (Ok (calls "get_weather" (city_json "Shenzhen"))) (Ok (says "Probably warm")).

Definition calling_trace : trace :=
  opening ++ [EvCreate request_with_tool (Ok (calls "get_weather" (city_json "Shenzhen")));
              EvCallTool "get_weather" shenzhen (Ok (VStr "sunny, 28 C"))]
          ++ EvCreate request_no_tool (Ok (says "Probably warm")) :: closing.

Definition calling_result : value :=
  comparison query
    (update (initial_result_with_tool
               (mkMessage VNone (Some (mkFunctionCall "get_weather" (city_json "Shenzhen")))))
            (tool_fields "get_weather" shenzhen (VStr "sunny, 28 C")))
    (result_no_tool_of (mkMessage (VStr "Probably warm") None)).

(** The model asks for [get_weather] with a text that is not JSON. *)
Definition garbled_world : World :=
  world (Ok (calls "get_weather" "city_name=Shenzhen")) (Ok (says "Probably warm")).

Definition garbled_trace : trace :=
  opening ++ EvCreate request_with_tool (Ok (calls "get_weather" "city_name=Shenzhen"))
          :: closing.

(** The model asks for a tool the provider does not have. *)
Definition stray_world : World :=
  world (Ok (calls "get_time" "{}")) (Ok (says "Probably warm")).

Definition stray_trace : trace :=
  opening ++ [EvCreate request_with_tool (Ok (calls "get_time" "{}"));
              EvCallTool "get_time" (VDict ∅) (Raise (ToolInvocationError "get_time"))]
          ++ closing.

(** The same, with an argument text that is not JSON either. *)
Definition stray_garbled_world : World :=
  world (Ok (calls "get_time" "now")) (Ok (says "Probably warm")).

Definition stray_garbled_trace : trace :=
  opening ++ EvCreate request_with_tool (Ok (calls "get_time" "now")) :: closing.

(** The completion service rejects the second call. *)
Definition failing_world : World :=
  world (Ok (says "I cannot look it up")) (Raise (EndpointError "quota")).

Definition failing_trace : trace :=
  opening ++ [EvCreate request_with_tool (Ok (says "I cannot look it up"))]
          ++ EvCreate request_no_tool (Raise (EndpointError "quota")) :: closing.

End Sample.

(** ** More on reading a trace *)

(** The events that enter or leave one of the two context managers. *)
Definition is_scope (ev : event) : bool :=
  match ev with
  | EvStdioEnter _ _ _ | EvSessionEnter _ | EvSessionExit | EvStdioExit => true
  | _ => false
  end.

(** The events of a run up to the first answer of the completion
    endpoint, and from the second call on, when every request succeeds. *)
Definition events_to_first_answer (self : MCPClientDemo) (q : string)
    (tools : list Tool) (resp1 : Response) : list event :=
  [EvStdioEnter "python" [server_path self] (Ok tt); EvSessionEnter (Ok tt);
   EvInitialize (Ok tt); EvListTools (Ok tools);
   EvCreate (mkRequest the_model [user_message q] (Some (functions_of tools)) (Some "auto"))
     (Ok resp1)].

Definition events_from_second_call (q : string) (resp2 : Response) : list event :=
  [EvCreate (mkRequest the_model [user_message q] None None) (Ok resp2);
   EvSessionExit; EvStdioExit].

(** ** [main] *)

(** What can end [main]: an exception of [run], or a failed subscript
    [v[k]] on the dictionary [run] returned. *)
Inductive main_exn : Type :=
| RunError (e : exn)
| KeyError (key : string)
| TypeError.

Inductive outcome (A : Type) : Type :=
| Done (a : A)
| Failed (e : main_exn).
Arguments Done {A} a.
Arguments Failed {A} e.

(** Standard output as the list of the [print] calls made, each with its
    arguments in order. *)
Definition stdout : Type := list (list value).

Definition P (A : Type) : Type := stdout -> stdout * outcome A.

Definition pret {A} (a : A) : P A := fun out => (out, Done a).

Definition pfail {A} (e : main_exn) : P A := fun out => (out, Failed e).

Definition pbind {A B} (m : P A) (k : A -> P B) : P B :=
  fun out =>
    match m out with
    | (out', Done a) => k a out'
    | (out', Failed e) => (out', Failed e)
    end.

Notation "x <~ m ;; k" := (pbind m (fun x => k))
  (at level 100, m at next level, right associativity).

(** [print(a, b, ...)] *)
Definition print (args : list value) : P unit := fun out => (out ++ [args], Done tt).

(** [v[k]] with a string key: a missing key raises [KeyError], a value
    that is not a dictionary raises [TypeError]. *)
Definition getitem (v : value) (k : string) : P value :=
  match v with
  | VDict d =>
      match d !! k with
      | Some x => pret x
      | None => pfail (KeyError k)
      end
  | _ => pfail TypeError
  end.

(** [v[k1][k2]] *)
Definition getitem2 (v : value) (k1 k2 : string) : P value :=
  inner <~ getitem v k1 ;; getitem inner k2.

Definition newline : string := String (Ascii.ascii_of_nat 10) EmptyString.

(** Lines 114 to 125: the printing of the comparison. *)
Definition report (result : value) : P unit :=
  user_query <~ getitem result "user_query" ;;
  _ <~ print [VStr ">>> 用户提问："; user_query] ;;
  _ <~ print [VStr (newline +:+ "【使用 MCP 工具】")] ;;
  model_reply <~ getitem2 result "with_mcp_tool" "model_reply" ;;
  _ <~ print [VStr "模型回复："; model_reply] ;;
  tool_called <~ getitem2 result "with_mcp_tool" "tool_called" ;;
  _ <~ (if truthy tool_called then
          tool_called <~ getitem2 result "with_mcp_tool" "tool_called" ;;
          _ <~ print [VStr "调用工具："; tool_called] ;;
          tool_arguments <~ getitem2 result "with_mcp_tool" "tool_arguments" ;;
          _ <~ print [VStr "工具参数："; tool_arguments] ;;
          tool_result <~ getitem2 result "with_mcp_tool" "tool_result" ;;
          print [VStr "工具结果："; tool_result]
        else
          print [VStr "未调用任何工具"]) ;;
  _ <~ print [VStr (newline +:+ "【不使用工具】")] ;;
  model_reply <~ getitem2 result "without_tool" "model_reply" ;;
  print [VStr "模型回复："; model_reply].

(** [main] (lines 106 to 125): the client is built on the fixed server
    path and run on the fixed query; an exception of [run] ends [main]
    before anything is printed. *)
Definition main (w : World) : trace * (stdout * outcome unit) :=
  let client := mkMCPClientDemo "./stdio_mcp.py" in
  let (tr, r) := run w client "深圳的天气怎么样" in
  match r with
  | Ok result => (tr, report result [])
  | Raise e => (tr, ([], Failed (RunError e)))
  end.

(** The client and the query of [main]. *)
Definition the_client : MCPClientDemo := mkMCPClientDemo "./stdio_mcp.py".

Definition the_query : string := "深圳的天气怎么样".

(** What [main] prints when a tool was reported, and when none was. *)
Definition lines_with_tool (reply1 : value) (tool_name : string)
    (arguments tool_result reply2 : value) : stdout :=
  [ [VStr ">>> 用户提问："; VStr "深圳的天气怎么样"];
    [VStr (newline +:+ "【使用 MCP 工具】")];
    [VStr "模型回复："; reply1];
    [VStr "调用工具："; VStr tool_name];
    [VStr "工具参数："; arguments];
    [VStr "工具结果："; tool_result];
    [VStr (newline +:+ "【不使用工具】")];
    [VStr "模型回复："; reply2] ].

Definition lines_without_tool (reply1 reply2 : value) : stdout :=
  [ [VStr ">>> 用户提问："; VStr "深圳的天气怎么样"];
    [VStr (newline +:+ "【使用 MCP 工具】")];
    [VStr "模型回复："; reply1];
    [VStr "未调用任何工具"];
    [VStr (newline +:+ "【不使用工具】")];
    [VStr "模型回复："; reply2] ].

(** ** More sample collaborators *)

Module Demo.

(** The completion service answers the first call with no choice. *)
Definition mute_world : World :=
  Sample.world (Ok (mkResponse [])) (Ok (Sample.says "Probably warm")).

Definition mute_trace : trace :=
  Sample.opening ++ EvCreate Sample.request_with_tool (Ok (mkResponse [])) :: Sample.closing.

(** A provider with one tool, whose name is the empty string. *)
Definition nameless : Tool := mkTool "" (VStr "answers pong") VNone.

Definition nameless_provider : Provider :=
  mkProvider [(nameless, fun _ => Some (VStr "pong"))].

Definition nameless_world : World :=
  provider_world nameless_provider
    (Sample.endpoint (Ok (Sample.calls "" "{}")) (Ok (Sample.says "Probably warm")))
    Sample.reader.

Definition nameless_request : Request :=
  mkRequest the_model [user_message Sample.query] (Some (functions_of [nameless]))
    (Some "auto").

Definition nameless_trace : trace :=
  [EvStdioEnter "python" ["./stdio_mcp.py"] (Ok tt); EvSessionEnter (Ok tt);
   EvInitialize (Ok tt); EvListTools (Ok [nameless]);
   EvCreate nameless_request (Ok (Sample.calls "" "{}"));
   EvCallTool "" (VDict ∅) (Ok (VStr "pong"));
   EvCreate Sample.request_no_tool (Ok (Sample.says "Probably warm"));
   EvSessionExit; EvStdioExit].

End Demo.

(** * Properties *)

(** ** The paths of a run *)

(** Splits a hypothesis [run w self q = (tr, r)] into the paths of the
    program: each answer of a collaborator is taken apart in the order in
    which the program asks for it. *)
Ltac step_run H :=
  match type of H with
  | context [stdio_client ?w ?t ?c ?a] =>
      destruct (stdio_client w t c a) as [[]|?] eqn:?
  | context [client_session ?w ?t] =>
      destruct (client_session w t) as [[]|?] eqn:?
  | context [initialize ?w ?t] =>
      destruct (initialize w t) as [[]|?] eqn:?
  | context [list_tools ?w ?t] =>
      destruct (list_tools w t) as [?tools|?] eqn:?
  | context [create ?w ?t ?req] =>
      destruct (create w t req) as [?resp|?] eqn:?
  | context [choices ?resp] =>
      destruct (choices resp) as [|?msg ?] eqn:?
  | context [function_call ?m] =>
      destruct (function_call m) as [?fc|] eqn:?
  | context [json_loads ?w ?s] =>
      destruct (json_loads w s) as [?arguments|] eqn:?
  | context [call_tool ?w ?t ?n ?a] =>
      destruct (call_tool w t n a) as [?tool_result|?] eqn:?
  end;
  cbv beta iota zeta in H.

Ltac run_paths H :=
  unfold run, run_from, async_with, session_body, tool_branch, loads,
    first_choice, bind, ask, emit, ret, raise in H;
  cbv beta iota zeta in H;
  repeat step_run H;
  first [ discriminate H | injection H as <- <- ];
  cbn [app].


(** The sample runs, computed. *)

Lemma quiet_run :
  run Sample.quiet_world Sample.demo Sample.query
  = (Sample.quiet_trace, Ok Sample.quiet_result).
Proof. vm_compute. reflexivity. Qed.

Lemma calling_run :
  run Sample.calling_world Sample.demo Sample.query
  = (Sample.calling_trace, Ok Sample.calling_result).
Proof. vm_compute. reflexivity. Qed.

Lemma garbled_run :
  run Sample.garbled_world Sample.demo Sample.query
  = (Sample.garbled_trace, Raise (JSONDecodeError "city_name=Shenzhen")).
Proof. vm_compute. reflexivity. Qed.

Lemma stray_run :
  run Sample.stray_world Sample.demo Sample.query
  = (Sample.stray_trace, Raise (ToolInvocationError "get_time")).
Proof. vm_compute. reflexivity. Qed.

Lemma stray_garbled_run :
  run Sample.stray_garbled_world Sample.demo Sample.query
  = (Sample.stray_garbled_trace, Raise (JSONDecodeError "now")).
Proof. vm_compute. reflexivity. Qed.

Lemma failing_run :
  run Sample.failing_world Sample.demo Sample.query
  = (Sample.failing_trace, Raise (EndpointError "quota")).
Proof. vm_compute. reflexivity. Qed.

(** ** From tool descriptors to function-call schema entries *)

Lemma functions_loop_map (acc : list value) (tools : list Tool) :
  functions_loop acc tools = acc ++ map (fun t => VDict (function_entry t)) tools.
Proof.
  revert acc. induction tools as [|t tools IH]; intros acc; cbn [functions_loop map].
  - now rewrite app_nil_r.
  - rewrite IH, <- app_assoc. reflexivity.
Qed.

Lemma functions_of_map (tools : list Tool) :
  functions_of tools = map (fun t => VDict (function_entry t)) tools.
Proof. unfold functions_of. now rewrite functions_loop_map. Qed.

Lemma functions_of_lookup (tools : list Tool) (i : nat) (tool : Tool) :
  tools !! i = Some tool ->
  functions_of tools !! i = Some (VDict (function_entry tool)).
Proof. intros H. rewrite functions_of_map, list_lookup_fmap, H. reflexivity. Qed.

Lemma entry_name (tool : Tool) :
  function_entry tool !! "name" = Some (VStr (name tool)).
Proof. reflexivity. Qed.

Lemma entry_description (tool : Tool) :
  function_entry tool !! "description" = Some (py_or (description tool) (VStr "")).
Proof. reflexivity. Qed.

Lemma entry_parameters (tool : Tool) :
  function_entry tool !! "parameters" = Some (py_or (inputSchema tool) default_parameters).
Proof. reflexivity. Qed.

Lemma entry_keys (tool : Tool) :
  dom (function_entry tool) = {[ "name"; "description"; "parameters" ]}.
Proof.
  unfold function_entry. rewrite !dom_insert_L, dom_singleton_L. set_solver.
Qed.

Lemma py_or_string (s : string) : py_or (VStr s) (VStr "") = VStr s.
Proof. unfold py_or. cbn. destruct (String.eqb_spec s ""); subst; reflexivity. Qed.

Lemma default_parameters_shape :
  single_required_string_field default_parameters "city_name".
Proof.
  repeat split.
  eexists _, _. split; [reflexivity|]. split; [|split; reflexivity].
  rewrite dom_singleton_L. reflexivity.
Qed.

(** C1: a tool descriptor whose parameter schema is missing ([None]) gets
    an entry, at the descriptor's position in [functions], whose
    [parameters] is the fallback schema; the fallback is an object schema
    with the single required string field [city_name]. *)
Theorem C1_missing_schema_gets_default (tools : list Tool) (i : nat) (tool : Tool) :
  tools !! i = Some tool ->
  inputSchema tool = VNone ->
  exists entry,
    functions_of tools !! i = Some (VDict entry) /\
    entry !! "parameters" = Some default_parameters /\
    single_required_string_field default_parameters "city_name".
Proof.
  intros Hi Hnone. exists (function_entry tool).
  split; [now apply functions_of_lookup|].
  split; [|exact default_parameters_shape].
  rewrite entry_parameters, Hnone. reflexivity.
Qed.

Lemma C1_witness :
  [mkTool "echo" VNone VNone] !! 0%nat = Some (mkTool "echo" VNone VNone) /\
  inputSchema (mkTool "echo" VNone VNone) = VNone /\
  exists entry,
    functions_of [mkTool "echo" VNone VNone] !! 0%nat = Some (VDict entry) /\
    entry !! "parameters" = Some default_parameters /\
    single_required_string_field default_parameters "city_name".
Proof.
  split; [reflexivity|]. split; [reflexivity|].
  apply (C1_missing_schema_gets_default [mkTool "echo" VNone VNone] 0
           (mkTool "echo" VNone VNone)); reflexivity.
Defined.

(** C2 as stated fails: a descriptor whose schema is present but is the
    empty object does not keep its schema. *)
Lemma C2_counterexample :
  inputSchema (mkTool "ping" (VStr "no parameters") (VDict ∅)) <> VNone /\
  function_entry (mkTool "ping" (VStr "no parameters") (VDict ∅)) !! "parameters"
    <> Some (inputSchema (mkTool "ping" (VStr "no parameters") (VDict ∅))).
Proof.
  split; [discriminate|].
  rewrite entry_parameters. cbn [inputSchema]. intros H.
  assert (Hd : field "type" (py_or (VDict ∅) default_parameters)
               = field "type" (VDict ∅)) by congruence.
  vm_compute in Hd. discriminate Hd.
Qed.

(** C2, amended: a descriptor whose parameter schema is present and not
    empty (true as Python tests it) gets, at its own position, an entry
    with exactly the keys [name], [description] and [parameters]; the
    schema is passed unchanged, the name is carried over, and so is a
    description that is a string.  There are as many entries as
    descriptors. *)
Theorem C2_schema_unchanged (tools : list Tool) (i : nat) (tool : Tool) :
  tools !! i = Some tool ->
  truthy (inputSchema tool) = true ->
  length (functions_of tools) = length tools /\
  exists entry,
    functions_of tools !! i = Some (VDict entry) /\
    dom entry = {[ "name"; "description"; "parameters" ]} /\
    entry !! "parameters" = Some (inputSchema tool) /\
    entry !! "name" = Some (VStr (name tool)) /\
    (forall s, description tool = VStr s -> entry !! "description" = Some (VStr s)).
Proof.
  intros Hi Htrue.
  split; [rewrite functions_of_map; apply length_map|].
  exists (function_entry tool).
  split; [now apply functions_of_lookup|].
  split; [apply entry_keys|].
  split; [|split].
  - rewrite entry_parameters. unfold py_or. rewrite Htrue. reflexivity.
  - apply entry_name.
  - intros s Hs. rewrite entry_description, Hs, py_or_string. reflexivity.
Qed.

Lemma C2_witness :
  [Sample.get_weather] !! 0%nat = Some Sample.get_weather /\
  truthy (inputSchema Sample.get_weather) = true /\
  length (functions_of [Sample.get_weather]) = length [Sample.get_weather] /\
  exists entry,
    functions_of [Sample.get_weather] !! 0%nat = Some (VDict entry) /\
    dom entry = {[ "name"; "description"; "parameters" ]} /\
    entry !! "parameters" = Some (inputSchema Sample.get_weather) /\
    entry !! "name" = Some (VStr (name Sample.get_weather)) /\
    (forall s, description Sample.get_weather = VStr s ->
               entry !! "description" = Some (VStr s)).
Proof.
  split; [reflexivity|]. split; [vm_compute; reflexivity|].
  apply (C2_schema_unchanged [Sample.get_weather] 0 Sample.get_weather).
  - reflexivity.
  - vm_compute. reflexivity.
Defined.

(** C9: the schema is tested for truth, not for presence.  A descriptor
    whose schema is false as Python tests it gets the fallback schema; in
    particular the empty object is replaced by the fallback, which is not
    the empty object. *)
Theorem C9_falsy_schema_gets_default (tools : list Tool) (i : nat) (tool : Tool) :
  tools !! i = Some tool ->
  truthy (inputSchema tool) = false ->
  truthy (VDict ∅) = false /\
  default_parameters <> VDict ∅ /\
  exists entry,
    functions_of tools !! i = Some (VDict entry) /\
    entry !! "parameters" = Some default_parameters.
Proof.
  intros Hi Hfalse.
  split; [vm_compute; reflexivity|].
  split.
  - intros H. apply (f_equal (field "type")) in H. vm_compute in H. discriminate H.
  - exists (function_entry tool). split; [now apply functions_of_lookup|].
    rewrite entry_parameters. unfold py_or. rewrite Hfalse. reflexivity.
Qed.

Lemma C9_witness :
  [mkTool "ping" VNone (VDict ∅)] !! 0%nat = Some (mkTool "ping" VNone (VDict ∅)) /\
  truthy (inputSchema (mkTool "ping" VNone (VDict ∅))) = false /\
  truthy (VDict ∅) = false /\
  default_parameters <> VDict ∅ /\
  exists entry,
    functions_of [mkTool "ping" VNone (VDict ∅)] !! 0%nat = Some (VDict entry) /\
    entry !! "parameters" = Some default_parameters.
Proof.
  split; [reflexivity|]. split; [vm_compute; reflexivity|].
  apply (C9_falsy_schema_gets_default [mkTool "ping" VNone (VDict ∅)] 0
           (mkTool "ping" VNone (VDict ∅))).
  - reflexivity.
  - vm_compute. reflexivity.
Defined.

(** ** Failures *)

Lemma split_nil {A} (pre post : list A) (x : A) : [] = pre ++ x :: post -> False.
Proof. destruct pre; discriminate. Qed.

Lemma split_cons {A} (y : A) (l pre post : list A) (x : A) :
  y :: l = pre ++ x :: post ->
  (pre = [] /\ x = y /\ post = l) \/
  (exists pre', pre = y :: pre' /\ l = pre' ++ x :: post).
Proof.
  destruct pre as [|z pre']; cbn; intros H; injection H as -> ->.
  - left. auto.
  - right. eauto.
Qed.

(** Enumerates the places at which a known trace splits around an event. *)
Ltac split_trace H :=
  repeat match type of H with
  | [] = _ ++ _ :: _ => exfalso; exact (split_nil _ _ _ H)
  | _ :: _ = _ ++ _ :: _ =>
      apply split_cons in H;
      destruct H as [(-> & -> & ->) | (? & -> & H)]
  end.

(** C6: whenever a request of a run (entering the channel, the handshake,
    listing the tools, either completion call, the tool invocation) ends
    with an exception, the run ends with that same exception, so no
    Comparison Result is returned, and nothing is asked afterwards: the
    events that follow only release the two context managers. *)
Theorem C6_failures_propagate (w : World) (self : MCPClientDemo) (q : string)
    (tr : trace) (r : result value) (pre post : list event) (ev : event) (e : exn) :
  run w self q = (tr, r) ->
  tr = pre ++ ev :: post ->
  failure ev = Some e ->
  r = Raise e /\
  (forall res, r <> Ok res) /\
  Forall (fun ev' => is_leave ev' = true) post.
Proof.
  intros Hrun Hsplit Hfail.
  run_paths Hrun; split_trace Hsplit; cbn in Hfail;
    first [ discriminate Hfail | injection Hfail as -> ];
    (split; [reflexivity|]; split; [discriminate|]; repeat constructor).
Qed.

Lemma C6_witness :
  run Sample.failing_world Sample.demo Sample.query
  = (Sample.failing_trace, Raise (EndpointError "quota")) /\
  Sample.failing_trace
  = (Sample.opening ++ [EvCreate Sample.request_with_tool (Ok (Sample.says "I cannot look it up"))])
    ++ EvCreate Sample.request_no_tool (Raise (EndpointError "quota")) :: Sample.closing /\
  failure (EvCreate Sample.request_no_tool (Raise (EndpointError "quota")))
  = Some (EndpointError "quota") /\
  Raise (EndpointError "quota") = Raise (EndpointError "quota") :> result value /\
  (forall res : value, Raise (EndpointError "quota") <> Ok res) /\
  Forall (fun ev' => is_leave ev' = true) Sample.closing.
Proof.
  split; [exact failing_run|]. split; [reflexivity|]. split; [reflexivity|].
  apply (C6_failures_propagate Sample.failing_world Sample.demo Sample.query
           Sample.failing_trace (Raise (EndpointError "quota"))
           (Sample.opening ++ [EvCreate Sample.request_with_tool
                                 (Ok (Sample.says "I cannot look it up"))])
           Sample.closing
           (EvCreate Sample.request_no_tool (Raise (EndpointError "quota")))
           (EndpointError "quota")).
  - exact failing_run.
  - reflexivity.
  - reflexivity.
Defined.

(** ** The reply with function schemas *)

(** Brings a hypothesis on the replies of a known trace to the message it
    speaks of, using what the path says of [choices] and [function_call]. *)
Ltac read_reply H :=
  unfold reply in H; cbn in H;
  repeat match goal with
  | E : choices ?resp = _ |- _ => rewrite E in H; cbn in H
  end;
  first [ discriminate H | injection H as <- ].

Ltac clash :=
  match goal with
  | E1 : ?x = Some _, E2 : ?x = None |- _ => rewrite E1 in E2; discriminate E2
  | E1 : ?x = None, E2 : ?x = Some _ |- _ => rewrite E1 in E2; discriminate E2
  end.

(** C3: when the first reply carries no function-call request, each of
    [tool_called], [tool_arguments] and [tool_result] is absent from the
    returned [with_mcp_tool] record or bound to [None]. *)
Theorem C3_no_call_no_tool_fields (w : World) (self : MCPClientDemo) (q : string)
    (tr : trace) (res : value) (msg : Message) :
  run w self q = (tr, Ok res) ->
  reply 0 tr = Some msg ->
  function_call msg = None ->
  exists d,
    field "with_mcp_tool" res = Some (VDict d) /\
    absent_or_none d "tool_called" /\
    absent_or_none d "tool_arguments" /\
    absent_or_none d "tool_result".
Proof.
  intros Hrun Hreply Hnone.
  run_paths Hrun; read_reply Hreply; try clash.
  eexists. split; [reflexivity|].
  split; [right; reflexivity|]. split; [left; reflexivity|right; reflexivity].
Qed.

(** C10: when the model makes no function-call request, the returned
    [with_mcp_tool] record has exactly the keys [model_reply],
    [tool_called] and [tool_result]; [tool_called] and [tool_result] are
    bound to [None] and there is no key [tool_arguments]. *)
Theorem C10_no_call_fields_not_uniform (w : World) (self : MCPClientDemo) (q : string)
    (tr : trace) (res : value) (msg : Message) :
  run w self q = (tr, Ok res) ->
  reply 0 tr = Some msg ->
  function_call msg = None ->
  exists d,
    field "with_mcp_tool" res = Some (VDict d) /\
    dom d = {[ "model_reply"; "tool_called"; "tool_result" ]} /\
    d !! "model_reply" = Some (content msg) /\
    d !! "tool_called" = Some VNone /\
    d !! "tool_result" = Some VNone /\
    d !! "tool_arguments" = None.
Proof.
  intros Hrun Hreply Hnone.
  run_paths Hrun; read_reply Hreply; try clash.
  eexists. split; [reflexivity|].
  split; [|repeat split].
  unfold initial_result_with_tool. rewrite !dom_insert_L, dom_singleton_L. set_solver.
Qed.

(** C4: when the first reply carries a function-call request whose
    argument text [json.loads] rejects, the run ends with the parse error
    of that text and no tool is invoked during the run. *)
Theorem C4_bad_arguments_fail_before_tool (w : World) (self : MCPClientDemo)
    (q : string) (tr : trace) (r : result value) (msg : Message) (fc : FunctionCall) :
  run w self q = (tr, r) ->
  reply 0 tr = Some msg ->
  function_call msg = Some fc ->
  json_loads w (fc_arguments fc) = None ->
  r = Raise (JSONDecodeError (fc_arguments fc)) /\
  tool_calls tr = [].
Proof.
  intros Hrun Hreply Hcall Hbad.
  run_paths Hrun; read_reply Hreply; try clash;
    match goal with
    | E : function_call ?m = Some ?f |- _ =>
        rewrite E in Hcall; injection Hcall as <-
    end;
    try clash.
  split; reflexivity.
Qed.

Lemma C3_witness :
  run Sample.quiet_world Sample.demo Sample.query
  = (Sample.quiet_trace, Ok Sample.quiet_result) /\
  reply 0 Sample.quiet_trace = Some (mkMessage (VStr "I cannot look it up") None) /\
  function_call (mkMessage (VStr "I cannot look it up") None) = None /\
  exists d,
    field "with_mcp_tool" Sample.quiet_result = Some (VDict d) /\
    absent_or_none d "tool_called" /\
    absent_or_none d "tool_arguments" /\
    absent_or_none d "tool_result".
Proof.
  split; [exact quiet_run|]. split; [reflexivity|]. split; [reflexivity|].
  apply (C3_no_call_no_tool_fields Sample.quiet_world Sample.demo Sample.query
           Sample.quiet_trace Sample.quiet_result
           (mkMessage (VStr "I cannot look it up") None)).
  - exact quiet_run.
  - reflexivity.
  - reflexivity.
Defined.

Lemma C10_witness :
  run Sample.quiet_world Sample.demo Sample.query
  = (Sample.quiet_trace, Ok Sample.quiet_result) /\
  reply 0 Sample.quiet_trace = Some (mkMessage (VStr "I cannot look it up") None) /\
  function_call (mkMessage (VStr "I cannot look it up") None) = None /\
  exists d,
    field "with_mcp_tool" Sample.quiet_result = Some (VDict d) /\
    dom d = {[ "model_reply"; "tool_called"; "tool_result" ]} /\
    d !! "model_reply" = Some (content (mkMessage (VStr "I cannot look it up") None)) /\
    d !! "tool_called" = Some VNone /\
    d !! "tool_result" = Some VNone /\
    d !! "tool_arguments" = None.
Proof.
  split; [exact quiet_run|]. split; [reflexivity|]. split; [reflexivity|].
  apply (C10_no_call_fields_not_uniform Sample.quiet_world Sample.demo Sample.query
           Sample.quiet_trace Sample.quiet_result
           (mkMessage (VStr "I cannot look it up") None)).
  - exact quiet_run.
  - reflexivity.
  - reflexivity.
Defined.

Lemma C4_witness :
  run Sample.garbled_world Sample.demo Sample.query
  = (Sample.garbled_trace, Raise (JSONDecodeError "city_name=Shenzhen")) /\
  reply 0 Sample.garbled_trace
  = Some (mkMessage VNone (Some (mkFunctionCall "get_weather" "city_name=Shenzhen"))) /\
  function_call (mkMessage VNone (Some (mkFunctionCall "get_weather" "city_name=Shenzhen")))
  = Some (mkFunctionCall "get_weather" "city_name=Shenzhen") /\
  json_loads Sample.garbled_world
    (fc_arguments (mkFunctionCall "get_weather" "city_name=Shenzhen")) = None /\
  Raise (JSONDecodeError "city_name=Shenzhen")
  = Raise (JSONDecodeError (fc_arguments (mkFunctionCall "get_weather" "city_name=Shenzhen")))
    :> result value /\
  tool_calls Sample.garbled_trace = [].
Proof.
  split; [exact garbled_run|]. split; [reflexivity|]. split; [reflexivity|].
  split; [reflexivity|].
  apply (C4_bad_arguments_fail_before_tool Sample.garbled_world Sample.demo Sample.query
           Sample.garbled_trace (Raise (JSONDecodeError "city_name=Shenzhen"))
           (mkMessage VNone (Some (mkFunctionCall "get_weather" "city_name=Shenzhen")))
           (mkFunctionCall "get_weather" "city_name=Shenzhen")).
  - exact garbled_run.
  - reflexivity.
  - reflexivity.
  - reflexivity.
Defined.

(** ** The second completion call and the returned record *)

(** As [split_trace], for a split around an event of a given form: the
    places where the trace has an event of another form are dropped. *)
Ltac split_trace_at H :=
  repeat match type of H with
  | [] = _ ++ _ :: _ => exfalso; exact (split_nil _ _ _ H)
  | _ :: _ = _ ++ _ :: _ =>
      let Hev := fresh "Hev" in
      apply split_cons in H;
      destruct H as [(-> & Hev & ->) | (? & -> & H)];
      [ first [ discriminate Hev | injection Hev as -> -> ] | ]
  end.

(** C7: a run calls the completion endpoint at most twice, and twice when
    it succeeds.  A call that is not the first one has exactly one call
    before it, carries the same model and the same messages (the user
    query alone) as that first call, passes neither function schemas nor a
    function-call mode while the first call passed schemas, and is
    followed by no tool invocation and no further completion call: every
    tool invocation of the run stands before it. *)
Theorem C7_second_call_without_schemas (w : World) (self : MCPClientDemo) (q : string)
    (tr : trace) (r : result value) :
  run w self q = (tr, r) ->
  length (completions tr) <= 2 /\
  (forall res, r = Ok res -> length (completions tr) = 2) /\
  forall pre post req2 r2,
    tr = pre ++ EvCreate req2 r2 :: post ->
    completions pre <> [] ->
    exists req1 r1,
      completions pre = [(req1, r1)] /\
      model req2 = model req1 /\
      messages req2 = messages req1 /\
      messages req2 = [user_message q] /\
      functions req1 <> None /\
      functions req2 = None /\
      function_call_mode req2 = None /\
      tool_calls post = [] /\
      completions post = [].
Proof.
  intros Hrun.
  run_paths Hrun;
    (split; [cbn; lia|]);
    (split; [intros res Hres; first [discriminate Hres | reflexivity]|]);
    intros pre post req2 r2 Hsplit Hpre;
    split_trace_at Hsplit;
    try (exfalso; apply Hpre; reflexivity);
    (eexists _, _; split; [reflexivity|]; repeat split; discriminate).
Qed.

Lemma C7_witness :
  run Sample.calling_world Sample.demo Sample.query
  = (Sample.calling_trace, Ok Sample.calling_result) /\
  length (completions Sample.calling_trace) <= 2 /\
  (forall res, Ok Sample.calling_result = Ok res ->
               length (completions Sample.calling_trace) = 2) /\
  forall pre post req2 r2,
    Sample.calling_trace = pre ++ EvCreate req2 r2 :: post ->
    completions pre <> [] ->
    exists req1 r1,
      completions pre = [(req1, r1)] /\
      model req2 = model req1 /\
      messages req2 = messages req1 /\
      messages req2 = [user_message Sample.query] /\
      functions req1 <> None /\
      functions req2 = None /\
      function_call_mode req2 = None /\
      tool_calls post = [] /\
      completions post = [].
Proof.
  split; [exact calling_run|].
  apply (C7_second_call_without_schemas Sample.calling_world Sample.demo Sample.query
           Sample.calling_trace (Ok Sample.calling_result)).
  exact calling_run.
Defined.

(** C8: a successful run on the query [q] returns a dictionary with
    exactly the keys [user_query], [with_mcp_tool] and [without_tool];
    [user_query] is [q]; [with_mcp_tool] is a dictionary; [without_tool]
    is the dictionary whose only entry binds [model_reply] to the content
    of the reply to the second completion call. *)
Theorem C8_comparison_result (w : World) (self : MCPClientDemo) (q : string)
    (tr : trace) (res : value) :
  run w self q = (tr, Ok res) ->
  keys res = {[ "user_query"; "with_mcp_tool"; "without_tool" ]} /\
  field "user_query" res = Some (VStr q) /\
  (exists d, field "with_mcp_tool" res = Some (VDict d)) /\
  exists msg2,
    reply 1 tr = Some msg2 /\
    field "without_tool" res = Some (VDict {[ "model_reply" := content msg2 ]}).
Proof.
  intros Hrun.
  run_paths Hrun;
    (split; [unfold comparison, keys; rewrite !dom_insert_L, dom_singleton_L; set_solver|]);
    (split; [reflexivity|]);
    (split; [eexists; reflexivity|]);
    eexists; (split; [|reflexivity]);
    unfold reply; cbn;
    match goal with E : choices ?resp = _ |- context [choices ?resp] => rewrite E end;
    reflexivity.
Qed.

Lemma C8_witness :
  run Sample.calling_world Sample.demo Sample.query
  = (Sample.calling_trace, Ok Sample.calling_result) /\
  keys Sample.calling_result = {[ "user_query"; "with_mcp_tool"; "without_tool" ]} /\
  field "user_query" Sample.calling_result = Some (VStr Sample.query) /\
  (exists d, field "with_mcp_tool" Sample.calling_result = Some (VDict d)) /\
  exists msg2,
    reply 1 Sample.calling_trace = Some msg2 /\
    field "without_tool" Sample.calling_result
    = Some (VDict {[ "model_reply" := content msg2 ]}).
Proof.
  split; [exact calling_run|].
  apply (C8_comparison_result Sample.calling_world Sample.demo Sample.query
           Sample.calling_trace Sample.calling_result).
  exact calling_run.
Defined.

(** ** A function-call request for a tool the provider does not have *)

Lemma find_handler_unknown (reg : list (Tool * (value -> option value))) (n : string) :
  n ∉ map name (map fst reg) -> find_handler reg n = None.
Proof.
  induction reg as [|[t h] reg IH]; cbn [find_handler map fst]; intros Hn;
    [reflexivity|].
  destruct (String.eqb_spec (name t) n) as [<-|Hne].
  - exfalso. apply Hn. left.
  - apply IH. intros Hin. apply Hn. now right.
Qed.

Lemma provider_call_unknown (p : Provider) (n : string) (arguments : value) :
  n ∉ provider_names p ->
  provider_call_tool p n arguments = Raise (ToolInvocationError n).
Proof.
  intros Hn. unfold provider_call_tool.
  now rewrite (find_handler_unknown _ _ Hn).
Qed.

(** C5 as stated fails: the reply names a tool the provider does not have,
    and the run ends with the parse error of the arguments, which is not a
    tool-invocation error. *)
Lemma C5_counterexample :
  run Sample.stray_garbled_world Sample.demo Sample.query
  = (Sample.stray_garbled_trace, Raise (JSONDecodeError "now")) /\
  reply 0 Sample.stray_garbled_trace
  = Some (mkMessage VNone (Some (mkFunctionCall "get_time" "now"))) /\
  ("get_time" ∉ provider_names Sample.provider) /\
  (forall msg, @Raise value (JSONDecodeError "now") <> Raise (ToolInvocationError msg)).
Proof.
  split; [exact stray_garbled_run|]. split; [reflexivity|].
  split; [|discriminate].
  cbn. rewrite list_elem_of_singleton. discriminate.
Qed.

(** C5, amended: when the first reply carries a function-call request
    naming a tool the provider does not have, the run returns no
    Comparison Result; when moreover the argument text parses, the run
    ends with the tool-invocation error of the one tool invocation it
    made. *)
Theorem C5_unknown_tool_fails (p : Provider)
    (endpoint : trace -> Request -> result Response) (reader : string -> option value)
    (self : MCPClientDemo) (q : string) (tr : trace) (r : result value)
    (msg : Message) (fc : FunctionCall) :
  run (provider_world p endpoint reader) self q = (tr, r) ->
  reply 0 tr = Some msg ->
  function_call msg = Some fc ->
  fc_name fc ∉ provider_names p ->
  (forall res, r <> Ok res) /\
  (forall arguments,
     reader (fc_arguments fc) = Some arguments ->
     r = Raise (ToolInvocationError (fc_name fc)) /\
     tool_calls tr
     = [(fc_name fc, arguments, Raise (ToolInvocationError (fc_name fc)))]).
Proof.
  intros Hrun Hreply Hcall Hunknown.
  run_paths Hrun; read_reply Hreply; try clash;
    match goal with
    | E : function_call ?m = Some ?f |- _ =>
        rewrite E in Hcall; injection Hcall as <-
    end;
    repeat match goal with
    | E : call_tool (provider_world _ _ _) _ _ _ = _ |- _ =>
        cbn in E; rewrite (provider_call_unknown _ _ _ Hunknown) in E;
        first [ discriminate E | injection E as <- ]
    | E : json_loads (provider_world _ _ _) _ = _ |- _ => cbn in E
    end.
  all: split; [discriminate|].
  all: intros arguments' Hparse.
  all: match goal with
       | E : ?text = _, Hp : ?text = Some _ |- _ => rewrite E in Hp
       end.
  all: first [ discriminate Hparse | injection Hparse as <-; split; reflexivity ].
Qed.

Lemma C5_witness :
  run (provider_world Sample.provider
         (Sample.endpoint (Ok (Sample.calls "get_time" "{}")) (Ok (Sample.says "Probably warm")))
         Sample.reader) Sample.demo Sample.query
  = (Sample.stray_trace, Raise (ToolInvocationError "get_time")) /\
  reply 0 Sample.stray_trace = Some (mkMessage VNone (Some (mkFunctionCall "get_time" "{}"))) /\
  function_call (mkMessage VNone (Some (mkFunctionCall "get_time" "{}")))
  = Some (mkFunctionCall "get_time" "{}") /\
  (fc_name (mkFunctionCall "get_time" "{}") ∉ provider_names Sample.provider) /\
  (forall res : value, Raise (ToolInvocationError "get_time") <> Ok res) /\
  (forall arguments,
     Sample.reader (fc_arguments (mkFunctionCall "get_time" "{}")) = Some arguments ->
     Raise (ToolInvocationError "get_time")
     = Raise (ToolInvocationError (fc_name (mkFunctionCall "get_time" "{}")))
       :> result value /\
     tool_calls Sample.stray_trace
     = [(fc_name (mkFunctionCall "get_time" "{}"), arguments,
         Raise (ToolInvocationError (fc_name (mkFunctionCall "get_time" "{}"))))]).
Proof.
  assert (Hunknown : "get_time" ∉ provider_names Sample.provider).
  { cbn. rewrite list_elem_of_singleton. discriminate. }
  split; [exact stray_run|]. split; [reflexivity|]. split; [reflexivity|].
  split; [exact Hunknown|].
  apply (C5_unknown_tool_fails Sample.provider
           (Sample.endpoint (Ok (Sample.calls "get_time" "{}"))
              (Ok (Sample.says "Probably warm")))
           Sample.reader Sample.demo Sample.query Sample.stray_trace
           (Raise (ToolInvocationError "get_time"))
           (mkMessage VNone (Some (mkFunctionCall "get_time" "{}")))
           (mkFunctionCall "get_time" "{}")).
  - exact stray_run.
  - reflexivity.
  - reflexivity.
  - exact Hunknown.
Defined.

(** * Further properties of [run] *)

(** ** The record of a tool call *)

Lemma with_tool_keys (msg : Message) (n : string) (a t : value) :
  dom (update (initial_result_with_tool msg) (tool_fields n a t))
  = {[ "model_reply"; "tool_called"; "tool_arguments"; "tool_result" ]}.
Proof.
  unfold update, initial_result_with_tool, tool_fields.
  rewrite dom_union_L, !dom_insert_L, !dom_singleton_L. set_solver.
Qed.

(** X1.  When the first reply asks for a function call and the run succeeds,
    the argument text was parsed, the tool was invoked exactly once, with
    the requested name and the parsed arguments, and [with_mcp_tool] has
    exactly four keys: the reply's content, the tool name, the parsed
    arguments and the value the tool returned. *)
Theorem tool_call_is_recorded (w : World) (self : MCPClientDemo) (q : string)
    (tr : trace) (res : value) (msg : Message) (fc : FunctionCall) :
  run w self q = (tr, Ok res) ->
  reply 0 tr = Some msg ->
  function_call msg = Some fc ->
  exists arguments tool_result d,
    json_loads w (fc_arguments fc) = Some arguments /\
    tool_calls tr = [(fc_name fc, arguments, Ok tool_result)] /\
    field "with_mcp_tool" res = Some (VDict d) /\
    dom d = {[ "model_reply"; "tool_called"; "tool_arguments"; "tool_result" ]} /\
    d !! "model_reply" = Some (content msg) /\
    d !! "tool_called" = Some (VStr (fc_name fc)) /\
    d !! "tool_arguments" = Some arguments /\
    d !! "tool_result" = Some tool_result.
Proof.
  intros Hrun Hreply Hcall.
  run_paths Hrun; read_reply Hreply; try clash;
    match goal with
    | E : function_call ?m = Some ?f |- _ =>
        rewrite E in Hcall; injection Hcall as <-
    end.
  eexists _, _, _. split; [eassumption|]. split; [reflexivity|].
  split; [reflexivity|]. split; [apply with_tool_keys|].
  repeat split.
Qed.

Lemma tool_call_is_recorded_witness :
  run Sample.calling_world Sample.demo Sample.query
  = (Sample.calling_trace, Ok Sample.calling_result) /\
  reply 0 Sample.calling_trace
  = Some (mkMessage VNone (Some (mkFunctionCall "get_weather" (Sample.city_json "Shenzhen")))) /\
  exists arguments tool_result d,
    json_loads Sample.calling_world
      (fc_arguments (mkFunctionCall "get_weather" (Sample.city_json "Shenzhen")))
    = Some arguments /\
    tool_calls Sample.calling_trace
    = [(fc_name (mkFunctionCall "get_weather" (Sample.city_json "Shenzhen")),
        arguments, Ok tool_result)] /\
    field "with_mcp_tool" Sample.calling_result = Some (VDict d) /\
    dom d = {[ "model_reply"; "tool_called"; "tool_arguments"; "tool_result" ]} /\
    d !! "model_reply"
    = Some (content (mkMessage VNone
              (Some (mkFunctionCall "get_weather" (Sample.city_json "Shenzhen"))))) /\
    d !! "tool_called"
    = Some (VStr (fc_name (mkFunctionCall "get_weather" (Sample.city_json "Shenzhen")))) /\
    d !! "tool_arguments" = Some arguments /\
    d !! "tool_result" = Some tool_result.
Proof.
  split; [exact calling_run|]. split; [reflexivity|].
  apply (tool_call_is_recorded Sample.calling_world Sample.demo Sample.query
           Sample.calling_trace Sample.calling_result
           (mkMessage VNone (Some (mkFunctionCall "get_weather" (Sample.city_json "Shenzhen"))))
           (mkFunctionCall "get_weather" (Sample.city_json "Shenzhen"))).
  - exact calling_run.
  - reflexivity.
  - reflexivity.
Defined.

(** ** Which tools a run invokes *)

(** X2.  Whatever the outcome of a run, it invokes no tool at all, or exactly
    one: the tool the first reply names, with the arguments parsed from
    that reply.  A tool is never invoked when the first reply does not ask
    for one. *)
Theorem only_the_requested_tool (w : World) (self : MCPClientDemo) (q : string)
    (tr : trace) (r : result value) :
  run w self q = (tr, r) ->
  (tool_calls tr = [] \/
   exists msg fc arguments answer,
     reply 0 tr = Some msg /\
     function_call msg = Some fc /\
     json_loads w (fc_arguments fc) = Some arguments /\
     tool_calls tr = [(fc_name fc, arguments, answer)]) /\
  (forall msg, reply 0 tr = Some msg -> function_call msg = None -> tool_calls tr = []) /\
  (reply 0 tr = None -> tool_calls tr = []).
Proof.
  intros Hrun.
  run_paths Hrun;
    (split; [|split]);
    try (intros msg' Hreply Hnone; read_reply Hreply; try clash; reflexivity);
    try (intros Hreply; first [reflexivity | read_reply Hreply]);
    try (left; reflexivity).
  all: right; eexists _, _, _, _; unfold reply; cbn.
  all: match goal with E : choices ?resp = _ |- context [choices ?resp] => rewrite E end.
  all: split; [reflexivity|]; split; [eassumption|]; split; [eassumption|reflexivity].
Qed.

Lemma only_the_requested_tool_witness :
  run Sample.stray_world Sample.demo Sample.query
  = (Sample.stray_trace, Raise (ToolInvocationError "get_time")) /\
  (tool_calls Sample.stray_trace = [] \/
   exists msg fc arguments answer,
     reply 0 Sample.stray_trace = Some msg /\
     function_call msg = Some fc /\
     json_loads Sample.stray_world (fc_arguments fc) = Some arguments /\
     tool_calls Sample.stray_trace = [(fc_name fc, arguments, answer)]) /\
  (forall msg, reply 0 Sample.stray_trace = Some msg -> function_call msg = None ->
               tool_calls Sample.stray_trace = []) /\
  (reply 0 Sample.stray_trace = None -> tool_calls Sample.stray_trace = []).
Proof.
  split; [exact stray_run|].
  apply (only_the_requested_tool Sample.stray_world Sample.demo Sample.query
           Sample.stray_trace (Raise (ToolInvocationError "get_time"))).
  exact stray_run.
Defined.

(** ** The two context managers *)

(** Proves [exists body, tr = ... body ... /\ Forall ... body] for a known
    trace by trying the bodies of up to six events. *)
Ltac guess_body :=
  let finish := (split; [reflexivity | repeat constructor]) in
  first [ exists []; finish
        | eexists [_]; finish
        | eexists [_; _]; finish
        | eexists [_; _; _]; finish
        | eexists [_; _; _; _]; finish
        | eexists [_; _; _; _; _]; finish
        | eexists [_; _; _; _; _; _]; finish ].

(** X3.  A run starts the child process [python] on the server path of the
    client and has one of three shapes.  Entering the channel fails:
    nothing else happens.  Entering the session fails: the channel is left
    and nothing else happens.  Otherwise everything the run asks of the
    tool channel and of the completion endpoint lies between the two
    entries and the two exits; the session is left first and the channel
    last, whether the run succeeds or not. *)
Theorem managers_are_left (w : World) (self : MCPClientDemo) (q : string)
    (tr : trace) (r : result value) :
  run w self q = (tr, r) ->
  (exists e,
     tr = [EvStdioEnter "python" [server_path self] (Raise e)] /\ r = Raise e) \/
  (exists e,
     tr = [EvStdioEnter "python" [server_path self] (Ok tt);
           EvSessionEnter (Raise e); EvStdioExit] /\ r = Raise e) \/
  (exists body,
     tr = EvStdioEnter "python" [server_path self] (Ok tt) :: EvSessionEnter (Ok tt)
          :: body ++ [EvSessionExit; EvStdioExit] /\
     Forall (fun ev => is_scope ev = false) body).
Proof.
  intros Hrun.
  run_paths Hrun.
  all: try (left; eexists; split; reflexivity).
  all: try (right; left; eexists; split; reflexivity).
  all: right; right; guess_body.
Qed.

Lemma managers_are_left_witness :
  run Sample.failing_world Sample.demo Sample.query
  = (Sample.failing_trace, Raise (EndpointError "quota")) /\
  ((exists e,
      Sample.failing_trace
      = [EvStdioEnter "python" [server_path Sample.demo] (Raise e)] /\
      Raise (EndpointError "quota") = Raise e :> result value) \/
   (exists e,
      Sample.failing_trace
      = [EvStdioEnter "python" [server_path Sample.demo] (Ok tt);
         EvSessionEnter (Raise e); EvStdioExit] /\
      Raise (EndpointError "quota") = Raise e :> result value) \/
   (exists body,
      Sample.failing_trace
      = EvStdioEnter "python" [server_path Sample.demo] (Ok tt) :: EvSessionEnter (Ok tt)
        :: body ++ [EvSessionExit; EvStdioExit] /\
      Forall (fun ev => is_scope ev = false) body)).
Proof.
  split; [exact failing_run|].
  apply (managers_are_left Sample.failing_world Sample.demo Sample.query
           Sample.failing_trace (Raise (EndpointError "quota"))).
  exact failing_run.
Defined.

(** ** The first completion call *)

(** X4.  The first completion call of a run is its fifth event, after the
    channel and the session are entered, the handshake is done and the
    tools are listed.  It carries the fixed model, the user query as the
    only message, the mode [auto], and one function entry per listed tool,
    in the order of the listing; with no tool listed it still passes a
    list of functions, the empty one. *)
Theorem first_call_offers_listed_tools (w : World) (self : MCPClientDemo) (q : string)
    (tr : trace) (r : result value) (req1 : Request) (r1 : result Response) :
  run w self q = (tr, r) ->
  completions tr !! 0%nat = Some (req1, r1) ->
  exists tools,
    take 5 tr
    = [EvStdioEnter "python" [server_path self] (Ok tt); EvSessionEnter (Ok tt);
       EvInitialize (Ok tt); EvListTools (Ok tools); EvCreate req1 r1] /\
    req1 = mkRequest the_model [user_message q]
             (Some (map (fun t => VDict (function_entry t)) tools)) (Some "auto") /\
    (tools = [] -> functions req1 = Some []).
Proof.
  intros Hrun Hfirst.
  run_paths Hrun; cbn in Hfirst;
    first [ discriminate Hfirst | injection Hfirst as <- <- ];
    eexists; (split; [reflexivity|]); rewrite functions_of_map;
    (split; [reflexivity|]); intros ->; reflexivity.
Qed.

Lemma first_call_offers_listed_tools_witness :
  run Sample.quiet_world Sample.demo Sample.query
  = (Sample.quiet_trace, Ok Sample.quiet_result) /\
  completions Sample.quiet_trace !! 0%nat
  = Some (Sample.request_with_tool, Ok (Sample.says "I cannot look it up")) /\
  exists tools,
    take 5 Sample.quiet_trace
    = [EvStdioEnter "python" [server_path Sample.demo] (Ok tt); EvSessionEnter (Ok tt);
       EvInitialize (Ok tt); EvListTools (Ok tools);
       EvCreate Sample.request_with_tool (Ok (Sample.says "I cannot look it up"))] /\
    Sample.request_with_tool
    = mkRequest the_model [user_message Sample.query]
        (Some (map (fun t => VDict (function_entry t)) tools)) (Some "auto") /\
    (tools = [] -> functions Sample.request_with_tool = Some []).
Proof.
  split; [exact quiet_run|]. split; [reflexivity|].
  apply (first_call_offers_listed_tools Sample.quiet_world Sample.demo Sample.query
           Sample.quiet_trace (Ok Sample.quiet_result)
           Sample.request_with_tool (Ok (Sample.says "I cannot look it up"))).
  - exact quiet_run.
  - reflexivity.
Defined.

(** ** A reply without choices *)

(** X5.  When a completion call is answered with an empty list of choices, the
    run ends with [IndexError] and that call is the last one: after an
    empty first answer no tool is invoked and no second call is made;
    after an empty second answer no Comparison Result is returned, also
    when a tool was invoked before. *)
Theorem empty_choices_raise_index_error (w : World) (self : MCPClientDemo) (q : string)
    (tr : trace) (r : result value) (i : nat) (req : Request) (resp : Response) :
  run w self q = (tr, r) ->
  completions tr !! i = Some (req, Ok resp) ->
  choices resp = [] ->
  r = Raise IndexError /\
  length (completions tr) = S i /\
  (i = 0%nat -> tool_calls tr = []).
Proof.
  intros Hrun Hi Hempty.
  run_paths Hrun; cbn [completions] in Hi;
    destruct i as [|[|i]]; cbn in Hi;
    try discriminate Hi;
    try (injection Hi as <- <-);
    try (match goal with E : choices ?x = _ :: _ |- _ =>
           rewrite Hempty in E; discriminate E end);
    (split; [reflexivity|]; split; [reflexivity|]);
    first [ discriminate | reflexivity ].
Qed.

Lemma empty_choices_raise_index_error_witness :
  run Demo.mute_world Sample.demo Sample.query = (Demo.mute_trace, Raise IndexError) /\
  completions Demo.mute_trace !! 0%nat = Some (Sample.request_with_tool, Ok (mkResponse [])) /\
  choices (mkResponse []) = [] /\
  Raise IndexError = Raise IndexError :> result value /\
  length (completions Demo.mute_trace) = 1%nat /\
  (0%nat = 0%nat -> tool_calls Demo.mute_trace = []).
Proof.
  assert (Hrun : run Demo.mute_world Sample.demo Sample.query
                 = (Demo.mute_trace, Raise IndexError)) by (vm_compute; reflexivity).
  split; [exact Hrun|]. split; [reflexivity|]. split; [reflexivity|].
  apply (empty_choices_raise_index_error Demo.mute_world Sample.demo Sample.query
           Demo.mute_trace (Raise IndexError) 0 Sample.request_with_tool (mkResponse [])).
  - exact Hrun.
  - reflexivity.
  - reflexivity.
Defined.

(** ** Where an exception of a run comes from *)



(** ** What every function entry holds *)

Lemma default_parameters_truthy : truthy default_parameters = true.
Proof. vm_compute. reflexivity. Qed.

Lemma py_or_truthy (x y : value) : truthy y = true -> truthy (py_or x y) = true.
Proof. intros Hy. unfold py_or. destruct (truthy x) eqn:Hx; assumption. Qed.

(** X7.  Every entry offered to the model comes from a listed tool and is a
    dictionary with exactly the keys [name], [description] and
    [parameters].  Its [parameters] is never [None] nor empty, and its
    [description] is never [None]: a description that is false as Python
    tests it has become the empty string. *)
Theorem entries_are_complete (tools : list Tool) (v : value) :
  v ∈ functions_of tools ->
  exists tool entry parameters descr,
    tool ∈ tools /\
    v = VDict entry /\
    dom entry = {[ "name"; "description"; "parameters" ]} /\
    entry !! "name" = Some (VStr (name tool)) /\
    entry !! "parameters" = Some parameters /\
    truthy parameters = true /\
    entry !! "description" = Some descr /\
    descr <> VNone /\
    (truthy descr = false -> descr = VStr "").
Proof.
  rewrite functions_of_map, list_elem_of_fmap.
  intros (tool & -> & Hin).
  exists tool, (function_entry tool),
    (py_or (inputSchema tool) default_parameters),
    (py_or (description tool) (VStr "")).
  split; [exact Hin|]. split; [reflexivity|]. split; [apply entry_keys|].
  split; [apply entry_name|]. split; [apply entry_parameters|].
  split; [apply py_or_truthy, default_parameters_truthy|].
  split; [apply entry_description|].
  unfold py_or. destruct (truthy (description tool)) eqn:Hd.
  - split; [|congruence]. intros Hnone. rewrite Hnone in Hd. discriminate Hd.
  - split; [discriminate|reflexivity].
Qed.

Lemma entries_are_complete_witness :
  VDict (function_entry Demo.nameless) ∈ functions_of [Demo.nameless] /\
  exists tool entry parameters descr,
    tool ∈ [Demo.nameless] /\
    VDict (function_entry Demo.nameless) = VDict entry /\
    dom entry = {[ "name"; "description"; "parameters" ]} /\
    entry !! "name" = Some (VStr (name tool)) /\
    entry !! "parameters" = Some parameters /\
    truthy parameters = true /\
    entry !! "description" = Some descr /\
    descr <> VNone /\
    (truthy descr = false -> descr = VStr "").
Proof.
  assert (Hin : VDict (function_entry Demo.nameless) ∈ functions_of [Demo.nameless]).
  { rewrite functions_of_map. cbn [map]. apply list_elem_of_here. }
  split; [exact Hin|].
  apply (entries_are_complete [Demo.nameless] (VDict (function_entry Demo.nameless))).
  exact Hin.
Defined.

(** * Properties of [main] *)

(** ** The report on the result of a run *)

Lemma report_quiet (msg1 msg2 : Message) :
  report (comparison the_query (initial_result_with_tool msg1) (result_no_tool_of msg2)) []
  = (lines_without_tool (content msg1) (content msg2), Done tt).
Proof. vm_compute. reflexivity. Qed.

Lemma report_called (msg1 msg2 : Message) (n : string) (a t : value) :
  n <> "" ->
  report (comparison the_query
            (update (initial_result_with_tool msg1) (tool_fields n a t))
            (result_no_tool_of msg2)) []
  = (lines_with_tool (content msg1) n a t (content msg2), Done tt).
Proof. intros Hn. destruct n as [|c n]; [congruence|]. vm_compute. reflexivity. Qed.

Lemma report_nameless (msg1 msg2 : Message) (a t : value) :
  report (comparison the_query
            (update (initial_result_with_tool msg1) (tool_fields "" a t))
            (result_no_tool_of msg2)) []
  = (lines_without_tool (content msg1) (content msg2), Done tt).
Proof. vm_compute. reflexivity. Qed.

(** Takes an equation between pairs apart, one level deep. *)
Ltac unpair H :=
  apply pair_equal_spec in H; destruct H as [<- H].

Ltac unpair_all H :=
  apply pair_equal_spec in H; destruct H as [<- <-].

(** X8.  [main] never fails on a subscript: it ends with an exception only when
    the run inside does, with that exception and before printing anything;
    when the run returns, [main] ends normally and has printed six lines,
    or eight when it reports a tool. *)
Theorem main_fails_only_with_run (w : World) (tr : trace) (out : stdout)
    (o : outcome unit) :
  main w = (tr, (out, o)) ->
  match o with
  | Done _ =>
      exists res, run w the_client the_query = (tr, Ok res) /\
                  (length out = 6%nat \/ length out = 8%nat)
  | Failed e =>
      exists e', e = RunError e' /\
                 run w the_client the_query = (tr, Raise e') /\
                 out = []
  end.
Proof.
  intros H. unfold main in H. fold the_query in H. fold the_client in H.
  destruct (run w the_client the_query) as [tr' r'] eqn:Hrun.
  run_paths Hrun; unpair H.
  all: try (unpair_all H; eexists; split; [reflexivity|]; split; reflexivity).
  all: try (rewrite report_quiet in H; unpair_all H;
            eexists; split; [reflexivity|]; left; reflexivity).
  all: match goal with
       | E : function_call _ = Some ?fc |- _ =>
           destruct (fc_name fc) as [|c n] eqn:Hname
       end.
  - rewrite report_nameless in H. unpair_all H.
    eexists; split; [reflexivity|]. left. reflexivity.
  - rewrite report_called in H by discriminate. unpair_all H.
    eexists; split; [reflexivity|]. right. reflexivity.
Qed.

Lemma main_fails_only_with_run_witness :
  main Sample.failing_world
  = (Sample.failing_trace, ([], Failed (RunError (EndpointError "quota")))) /\
  exists e', RunError (EndpointError "quota") = RunError e' /\
             run Sample.failing_world the_client the_query
             = (Sample.failing_trace, Raise e') /\
             @nil (list value) = [].
Proof.
  assert (Hmain : main Sample.failing_world
                  = (Sample.failing_trace, ([], Failed (RunError (EndpointError "quota")))))
    by (vm_compute; reflexivity).
  split; [exact Hmain|].
  apply (main_fails_only_with_run Sample.failing_world Sample.failing_trace []
           (Failed (RunError (EndpointError "quota")))).
  exact Hmain.
Defined.

(** ** What [main] prints *)

(** X9.  When both completion calls are answered and the one tool invocation
    of the run returned, under a name that is not empty, [main] prints
    eight lines: the query, the first reply, the name of the tool, the
    arguments it was invoked with, the value it returned, and the second
    reply. *)
Theorem main_reports_the_tool (w : World) (tr : trace) (out : stdout)
    (o : outcome unit) (msg1 msg2 : Message) (n : string) (a t : value) :
  main w = (tr, (out, o)) ->
  reply 0 tr = Some msg1 ->
  reply 1 tr = Some msg2 ->
  tool_calls tr = [(n, a, Ok t)] ->
  n <> "" ->
  out = lines_with_tool (content msg1) n a t (content msg2) /\ o = Done tt.
Proof.
  intros H Hr0 Hr1 Hcalls Hn.
  unfold main in H. fold the_query in H. fold the_client in H.
  destruct (run w the_client the_query) as [tr' r'] eqn:Hrun.
  run_paths Hrun; unpair H; read_reply Hr0; read_reply Hr1;
    cbn in Hcalls; first [ discriminate Hcalls | injection Hcalls as Hname <- <- ].
  rewrite Hname in H. rewrite report_called in H by exact Hn. unpair_all H. split; reflexivity.
Qed.

Lemma main_reports_the_tool_witness :
  main Sample.calling_world
  = (Sample.calling_trace,
     (lines_with_tool VNone "get_weather" Sample.shenzhen (VStr "sunny, 28 C")
        (VStr "Probably warm"), Done tt)) /\
  reply 0 Sample.calling_trace
  = Some (mkMessage VNone (Some (mkFunctionCall "get_weather" (Sample.city_json "Shenzhen")))) /\
  reply 1 Sample.calling_trace = Some (mkMessage (VStr "Probably warm") None) /\
  tool_calls Sample.calling_trace = [("get_weather", Sample.shenzhen, Ok (VStr "sunny, 28 C"))] /\
  "get_weather" <> "" /\
  lines_with_tool VNone "get_weather" Sample.shenzhen (VStr "sunny, 28 C") (VStr "Probably warm")
  = lines_with_tool
      (content (mkMessage VNone
         (Some (mkFunctionCall "get_weather" (Sample.city_json "Shenzhen")))))
      "get_weather" Sample.shenzhen (VStr "sunny, 28 C")
      (content (mkMessage (VStr "Probably warm") None)) /\
  Done tt = Done tt :> outcome unit.
Proof.
  assert (Hmain : main Sample.calling_world
                  = (Sample.calling_trace,
                     (lines_with_tool VNone "get_weather" Sample.shenzhen
                        (VStr "sunny, 28 C") (VStr "Probably warm"), Done tt)))
    by (vm_compute; reflexivity).
  split; [exact Hmain|]. split; [reflexivity|]. split; [reflexivity|].
  split; [reflexivity|]. split; [discriminate|].
  apply (main_reports_the_tool Sample.calling_world Sample.calling_trace
           (lines_with_tool VNone "get_weather" Sample.shenzhen (VStr "sunny, 28 C")
              (VStr "Probably warm"))
           (Done tt)
           (mkMessage VNone (Some (mkFunctionCall "get_weather" (Sample.city_json "Shenzhen"))))
           (mkMessage (VStr "Probably warm") None)
           "get_weather" Sample.shenzhen (VStr "sunny, 28 C")).
  - exact Hmain.
  - reflexivity.
  - reflexivity.
  - reflexivity.
  - discriminate.
Defined.

(** X10.  When both completion calls are answered and the run invoked no tool,
    [main] prints six lines and says that no tool was called.  It prints
    the same six lines when a tool was invoked under the empty name:
    [main] tests the recorded name for truth, so that invocation is not
    reported. *)
Theorem main_reports_no_tool (w : World) (tr : trace) (out : stdout)
    (o : outcome unit) (msg1 msg2 : Message) :
  main w = (tr, (out, o)) ->
  reply 0 tr = Some msg1 ->
  reply 1 tr = Some msg2 ->
  tool_calls tr = [] \/ (exists a t, tool_calls tr = [("", a, t)]) ->
  out = lines_without_tool (content msg1) (content msg2) /\ o = Done tt.
Proof.
  intros H Hr0 Hr1 Hcalls.
  unfold main in H. fold the_query in H. fold the_client in H.
  destruct (run w the_client the_query) as [tr' r'] eqn:Hrun.
  run_paths Hrun; unpair H; read_reply Hr0; read_reply Hr1;
    destruct Hcalls as [Hcalls | (a' & t' & Hcalls)]; cbn in Hcalls;
    try discriminate Hcalls.
  - injection Hcalls as Hname <- <-. rewrite Hname in H.
    rewrite report_nameless in H. unpair_all H. split; reflexivity.
  - rewrite report_quiet in H. unpair_all H. split; reflexivity.
Qed.

Lemma main_reports_no_tool_witness :
  main Demo.nameless_world
  = (Demo.nameless_trace,
     (lines_without_tool VNone (VStr "Probably warm"), Done tt)) /\
  reply 0 Demo.nameless_trace = Some (mkMessage VNone (Some (mkFunctionCall "" "{}"))) /\
  reply 1 Demo.nameless_trace = Some (mkMessage (VStr "Probably warm") None) /\
  (tool_calls Demo.nameless_trace = [] \/
   exists a t, tool_calls Demo.nameless_trace = [("", a, t)]) /\
  lines_without_tool VNone (VStr "Probably warm")
  = lines_without_tool (content (mkMessage VNone (Some (mkFunctionCall "" "{}"))))
      (content (mkMessage (VStr "Probably warm") None)) /\
  Done tt = Done tt :> outcome unit.
Proof.
  assert (Hmain : main Demo.nameless_world
                  = (Demo.nameless_trace,
                     (lines_without_tool VNone (VStr "Probably warm"), Done tt)))
    by (vm_compute; reflexivity).
  assert (Hcalls : tool_calls Demo.nameless_trace = [] \/
                   exists a t, tool_calls Demo.nameless_trace = [("", a, t)])
    by (right; eexists _, _; reflexivity).
  split; [exact Hmain|]. split; [reflexivity|]. split; [reflexivity|].
  split; [exact Hcalls|].
  apply (main_reports_no_tool Demo.nameless_world Demo.nameless_trace
           (lines_without_tool VNone (VStr "Probably warm")) (Done tt)
           (mkMessage VNone (Some (mkFunctionCall "" "{}")))
           (mkMessage (VStr "Probably warm") None)).
  - exact Hmain.
  - reflexivity.
  - reflexivity.
  - exact Hcalls.
Defined.

(** * The whole of a successful run *)

(** X11.  A run that returns a result has asked for exactly this, in this
    order: the channel, the session, the handshake, the list of tools, the
    first completion call, at most one tool invocation that returned, the
    second completion call, and the two exits.  Nothing is asked twice. *)
Theorem successful_run_events (w : World) (self : MCPClientDemo) (q : string)
    (tr : trace) (res : value) :
  run w self q = (tr, Ok res) ->
  exists tools resp1 resp2,
    tr = events_to_first_answer self q tools resp1 ++ events_from_second_call q resp2 \/
    exists n a t,
      tr = events_to_first_answer self q tools resp1
           ++ EvCallTool n a (Ok t) :: events_from_second_call q resp2.
Proof.
  intros Hrun.
  run_paths Hrun; eexists _, _, _.
  - right. eexists _, _, _. reflexivity.
  - left. reflexivity.
Qed.

Lemma successful_run_events_witness :
  run Sample.calling_world Sample.demo Sample.query
  = (Sample.calling_trace, Ok Sample.calling_result) /\
  exists tools resp1 resp2,
    Sample.calling_trace
    = events_to_first_answer Sample.demo Sample.query tools resp1
      ++ events_from_second_call Sample.query resp2 \/
    exists n a t,
      Sample.calling_trace
      = events_to_first_answer Sample.demo Sample.query tools resp1
        ++ EvCallTool n a (Ok t) :: events_from_second_call Sample.query resp2.
Proof.
  split; [exact calling_run|].
  apply (successful_run_events Sample.calling_world Sample.demo Sample.query
           Sample.calling_trace Sample.calling_result).
  exact calling_run.
Defined.
